(** * example.py: shallow embedding and verified properties

    [command_runner/test_files/example.py] is a Python 3 fixture: an entry
    point [main], the function [add], pytest-style test functions, a plain
    test class [TestMath] and a [unittest.TestCase] subclass [TestAddition].

    The file is dynamically typed, so the embedding works over a type of
    Python values and models the operators the file applies ([+], [-], [*],
    [/], [==], [assert], [print], [sum], f-string formatting) with the
    dispatch CPython performs on [NoneType], [bool], [int], [float] and
    [str] operands; operands of other types (lists, tuples, bytes, complex
    numbers, instances of classes) are outside the model, and every
    statement about [add] speaks of these five types.  A [float] is a
    binary64 number, taken from the
    Standard Library's [SpecFloat]; an [int] is an unbounded [Z].  Functions
    run in a small monad that threads the standard output stream and
    propagates exceptions. *)

From Stdlib Require Import ZArith List String Ascii Lia.
From Stdlib Require Import DecimalString SpecFloat.
Import ListNotations.

Local Open Scope string_scope.
Local Open Scope Z_scope.

(** ** The Python runtime the file relies on *)

Module Py.

(** Python's [float] is IEEE-754 binary64. *)
Definition prec : Z := 53.
Definition emax : Z := 1024.

Inductive value : Type :=
| VNone
| VBool (b : bool)
| VInt (n : Z)
| VFloat (x : spec_float)
| VStr (s : string).

Inductive exn : Type :=
| AssertionError
| TypeError
| ZeroDivisionError
| OverflowError.

Inductive outcome (A : Type) : Type :=
| Return (a : A)
| Raise (e : exn).

Arguments Return {A} a.
Arguments Raise {A} e.

(** [bool] is a subclass of [int]: [True] counts as 1 and [False] as 0. *)
Definition as_int (v : value) : option Z :=
  match v with
  | VBool b => Some (Z.b2z b)
  | VInt n => Some n
  | _ => None
  end.

Definition is_numeric (v : value) : bool :=
  match v with
  | VBool _ | VInt _ | VFloat _ => true
  | _ => false
  end.

(** [int] to [float] (PyLong_AsDouble): round to nearest, ties to even;
    an integer that rounds beyond the largest finite float raises. *)
Definition float_of_int (n : Z) : outcome spec_float :=
  match binary_normalize prec emax n 0 false with
  | S754_infinity _ => Raise OverflowError
  | x => Return x
  end.

Definition as_float (v : value) : option (outcome spec_float) :=
  match v with
  | VBool b => Some (float_of_int (Z.b2z b))
  | VInt n => Some (float_of_int n)
  | VFloat x => Some (Return x)
  | _ => None
  end.

(** The float slot of a binary operator: both operands are converted,
    left one first; an operand that is not a number is a [TypeError]. *)
Definition float_binop (op : spec_float -> spec_float -> outcome value)
    (a b : value) : outcome value :=
  match as_float a, as_float b with
  | Some (Return x), Some (Return y) => op x y
  | Some (Raise e), Some _ => Raise e
  | Some (Return _), Some (Raise e) => Raise e
  | _, _ => Raise TypeError
  end.

(** [a + b] *)
Definition py_add (a b : value) : outcome value :=
  match a, b with
  | VStr s, VStr t => Return (VStr (s ++ t))
  | _, _ =>
      match as_int a, as_int b with
      | Some x, Some y => Return (VInt (x + y))
      | _, _ =>
          float_binop (fun x y => Return (VFloat (SFadd prec emax x y))) a b
      end
  end.

(** [a - b] *)
Definition py_sub (a b : value) : outcome value :=
  match as_int a, as_int b with
  | Some x, Some y => Return (VInt (x - y))
  | _, _ => float_binop (fun x y => Return (VFloat (SFsub prec emax x y))) a b
  end.

(** Sequence repetition, [s * n]: no copy at all when [n <= 0]. *)
Fixpoint repeat_string (s : string) (n : nat) : string :=
  match n with
  | O => EmptyString
  | S k => s ++ repeat_string s k
  end.

(** [a * b] *)
Definition py_mul (a b : value) : outcome value :=
  match a, b with
  | VStr s, _ =>
      match as_int b with
      | Some n => Return (VStr (repeat_string s (Z.to_nat n)))
      | None => Raise TypeError
      end
  | _, VStr s =>
      match as_int a with
      | Some n => Return (VStr (repeat_string s (Z.to_nat n)))
      | None => Raise TypeError
      end
  | _, _ =>
      match as_int a, as_int b with
      | Some x, Some y => Return (VInt (x * y))
      | _, _ =>
          float_binop (fun x y => Return (VFloat (SFmul prec emax x y))) a b
      end
  end.

(** True division of two ints (long_true_divide): the exact quotient is
    rounded once, to nearest even.  A zero divisor and a quotient beyond the
    float range raise; a zero dividend keeps the sign of the quotient. *)
Definition int_true_divide (a b : Z) : outcome value :=
  if b =? 0 then Raise ZeroDivisionError
  else
    let negate := xorb (a <? 0) (b <? 0) in
    if a =? 0 then Return (VFloat (S754_zero negate))
    else
      let '(q, e, loc) :=
        SFdiv_core_binary prec emax (Z.abs a) 0 (Z.abs b) 0 in
      match binary_round_aux prec emax negate q e loc with
      | S754_infinity _ => Raise OverflowError
      | x => Return (VFloat x)
      end.

Definition is_zero (x : spec_float) : bool :=
  match x with
  | S754_zero _ => true
  | _ => false
  end.

(** [a / b] *)
Definition py_truediv (a b : value) : outcome value :=
  match as_int a, as_int b with
  | Some x, Some y => int_true_divide x y
  | _, _ =>
      float_binop
        (fun x y =>
           if is_zero y then Raise ZeroDivisionError
           else Return (VFloat (SFdiv prec emax x y)))
        a b
  end.

(** A float against an int: the two are compared as exact numbers, with no
    conversion of the int. *)
Definition float_eq_int (x : spec_float) (n : Z) : bool :=
  match x with
  | S754_zero _ => n =? 0
  | S754_finite s m e =>
      let v := cond_Zopp s (Zpos m) in
      if 0 <=? e then v * 2 ^ e =? n else v =? n * 2 ^ (- e)
  | _ => false
  end.

Definition value_eqb (a b : value) : bool :=
  match a, b with
  | VNone, VNone => true
  | VStr s, VStr t => String.eqb s t
  | VFloat x, VFloat y => SFeqb x y
  | VFloat x, _ =>
      match as_int b with
      | Some n => float_eq_int x n
      | None => false
      end
  | _, VFloat y =>
      match as_int a with
      | Some n => float_eq_int y n
      | None => false
      end
  | _, _ =>
      match as_int a, as_int b with
      | Some x, Some y => x =? y
      | _, _ => false
      end
  end.

(** [a == b]; on these types the comparison never raises. *)
Definition py_eq (a b : value) : value := VBool (value_eqb a b).

(** Truth value of an object, as [assert], [if] and [not] test it. *)
Definition truthy (v : value) : bool :=
  match v with
  | VNone => false
  | VBool b => b
  | VInt n => negb (n =? 0)
  | VFloat x => negb (is_zero x)
  | VStr s => negb (String.eqb s EmptyString)
  end.

(** [sum(iterable)]: the items are added from left to right to the start
    value 0. *)
Fixpoint sum_from (start : value) (items : list value) : outcome value :=
  match items with
  | [] => Return start
  | x :: rest =>
      match py_add start x with
      | Return acc => sum_from acc rest
      | Raise e => Raise e
      end
  end.

Definition py_sum (iterable : list value) : outcome value :=
  sum_from (VInt 0) iterable.

(** *** Effects: the output stream and exceptions *)

Record world : Type := World { stdout : string }.

Definition M (A : Type) : Type := world -> outcome A * world.

Definition ret {A} (a : A) : M A := fun w => (Return a, w).

Definition raise {A} (e : exn) : M A := fun w => (Raise e, w).

(** Sequencing: an exception of the first computation skips the rest and
    reaches the caller as it is. *)
Definition bind {A B} (c : M A) (k : A -> M B) : M B :=
  fun w =>
    match c w with
    | (Return a, w') => k a w'
    | (Raise e, w') => (Raise e, w')
    end.

(** An operator application inside a function body: it touches no state. *)
Definition lift {A} (o : outcome A) : M A := fun w => (o, w).

Notation "x <- c ;; k" := (bind c (fun x => k))
  (at level 61, c at next level, right associativity).
Notation "c ;;; k" := (bind c (fun _ => k))
  (at level 61, right associativity).

(** The [assert] statement (the interpreter runs without -O). *)
Definition assert_ (test : value) : M value :=
  if truthy test then ret VNone else raise AssertionError.

Definition newline : string := String (ascii_of_nat 10) EmptyString.

Definition str_of_int (n : Z) : string := NilZero.string_of_int (Z.to_int n).

(** [str.splitlines] restricted to the line feed. *)
Fixpoint splitlines_from (cur s : string) : list string :=
  match s with
  | EmptyString => if String.eqb cur EmptyString then [] else [cur]
  | String c rest =>
      if Ascii.eqb c (ascii_of_nat 10) then cur :: splitlines_from EmptyString rest
      else splitlines_from (cur ++ String c EmptyString) rest
  end.

Definition splitlines (s : string) : list string :=
  splitlines_from EmptyString s.

Section Text.

(** [repr] of a float, the shortest decimal string that reads back as the
    same binary64 number.  The file only ever formats an int, so the digit
    generation stays a parameter of the development. *)
Variable float_repr : spec_float -> string.

(** [str(v)], which is also [format(v, "")] inside an f-string. *)
Definition py_str (v : value) : string :=
  match v with
  | VNone => "None"
  | VBool true => "True"
  | VBool false => "False"
  | VInt n => str_of_int n
  | VFloat x => float_repr x
  | VStr s => s
  end.

(** [print(v)]: the text of [v] and a line feed are appended to
    [sys.stdout]. *)
Definition print (v : value) : M value :=
  fun w => (Return VNone, World (stdout w ++ py_str v ++ newline)).

End Text.

End Py.

(** The unittest library, as far as the file uses it. *)
Module unittest.
Module TestCase.
Import Py.

(** [self.assertEqual(first, second)]: fails with [self.failureException],
    which is [AssertionError], when [first == second] is false. *)
Definition assertEqual (first second : value) : M value :=
  if negb (truthy (py_eq first second)) then raise AssertionError
  else ret VNone.

End TestCase.
End unittest.

(** ** The source file *)

Import Py.

(** The receiver of a method: an instance of one of the two classes of the
    file, neither of which declares an attribute. *)
Inductive instance : Type := Instance (class_name : string).

(** [def add(a, b)], "Add two numbers".  It stands before [main] here;
    Python looks the name up when [main] runs. *)
Definition add (a b : value) : M value := lift (py_add a b).

Section EntryPoint.

Variable float_repr : spec_float -> string.

(** [def main()], "Main entry point" *)
Definition main : M value :=
  print float_repr (VStr "Hello from Python!") ;;;
  result <- add (VInt 2) (VInt 3) ;;
  print float_repr (VStr ("2 + 3 = " ++ py_str float_repr result)) ;;;
  ret VNone.

End EntryPoint.

Definition test_addition : M value :=
  r <- add (VInt 2) (VInt 2) ;;
  assert_ (py_eq r (VInt 4)) ;;;
  ret VNone.

Definition test_subtraction : M value :=
  d <- lift (py_sub (VInt 5) (VInt 3)) ;;
  assert_ (py_eq d (VInt 2)) ;;;
  ret VNone.

Module TestMath.

Definition test_multiplication (self : instance) : M value :=
  p <- lift (py_mul (VInt 3) (VInt 4)) ;;
  assert_ (py_eq p (VInt 12)) ;;;
  ret VNone.

Definition test_division (self : instance) : M value :=
  q <- lift (py_truediv (VInt 10) (VInt 2)) ;;
  assert_ (py_eq q (VInt 5)) ;;;
  ret VNone.

Definition test_add_negative (self : instance) : M value :=
  r <- add (VInt (-1)) (VInt 1) ;;
  assert_ (py_eq r (VInt 0)) ;;;
  ret VNone.

End TestMath.

Definition test_with_pytest_style : M value :=
  let given := [VInt 1; VInt 2; VInt 3] in
  let expected := VInt 6 in
  total <- lift (py_sum given) ;;
  assert_ (py_eq total expected) ;;;
  ret VNone.

Module TestAddition.
Import unittest.

Definition test_positive_numbers (self : instance) : M value :=
  r <- add (VInt 3) (VInt 4) ;;
  TestCase.assertEqual r (VInt 7) ;;;
  ret VNone.

Definition test_negative_numbers (self : instance) : M value :=
  r <- add (VInt (-3)) (VInt (-4)) ;;
  TestCase.assertEqual r (VInt (-7)) ;;;
  ret VNone.

End TestAddition.

(** The last statement of the file, [if __name__ == "__main__": main()].
    The statements before it bind the functions and classes and write
    nothing; [__name__] is the name the module runs under. *)
Definition module_body (float_repr : spec_float -> string) (__name__ : string)
    : M value :=
  if truthy (py_eq (VStr __name__) (VStr "__main__")) then
    main float_repr ;;; ret VNone
  else ret VNone.

(** ** Vocabulary of the properties *)

Definition is_str (v : value) : bool :=
  match v with
  | VStr _ => true
  | _ => false
  end.

(** The Python expressions [add(add(a, b), c)] and [add(a, add(b, c))]. *)
Definition add_left (a b c : value) : M value := r <- add a b ;; add r c.
Definition add_right (a b c : value) : M value := r <- add b c ;; add a r.

(** The float [0.0]. *)
Definition float_zero : spec_float := S754_zero false.


(** What a harness that follows the discovery conventions runs: every
    [test_*] function, and every [test_*] method on an instance of its
    class.  Each entry pairs the test with the equality it asserts. *)
Record test_case : Type := Test { run : M value; asserted : M value }.

Definition test_cases (self : instance) : list test_case :=
  [ Test test_addition
      (r <- add (VInt 2) (VInt 2) ;; ret (py_eq r (VInt 4)));
    Test test_subtraction
      (d <- lift (py_sub (VInt 5) (VInt 3)) ;; ret (py_eq d (VInt 2)));
    Test (TestMath.test_multiplication self)
      (p <- lift (py_mul (VInt 3) (VInt 4)) ;; ret (py_eq p (VInt 12)));
    Test (TestMath.test_division self)
      (q <- lift (py_truediv (VInt 10) (VInt 2)) ;; ret (py_eq q (VInt 5)));
    Test (TestMath.test_add_negative self)
      (r <- add (VInt (-1)) (VInt 1) ;; ret (py_eq r (VInt 0)));
    Test test_with_pytest_style
      (total <- lift (py_sum [VInt 1; VInt 2; VInt 3]) ;;
       ret (py_eq total (VInt 6)));
    Test (TestAddition.test_positive_numbers self)
      (r <- add (VInt 3) (VInt 4) ;; ret (py_eq r (VInt 7)));
    Test (TestAddition.test_negative_numbers self)
      (r <- add (VInt (-3)) (VInt (-4)) ;; ret (py_eq r (VInt (-7)))) ].

(** The Python expression [add(a, b) == c]. *)
Definition add_equals (a b c : value) : M value :=
  r <- add a b ;; ret (py_eq r c).

(** The Python expression [add(a, b) == add(b, a)]. *)
Definition add_commutes (a b : value) : M value :=
  x <- add a b ;; y <- add b a ;; ret (py_eq x y).

Definition raises {A} (r : outcome A * world) : Prop :=
  exists e, fst r = Raise e.

(** The five addition facts of the specification, as [(a, b, a + b)]. *)
Definition addition_facts : list (Z * Z * Z) :=
  [(2, 3, 5); (2, 2, 4); (-1, 1, 0); (3, 4, 7); (-3, -4, -7)].

(** The floats [1.0] and [5.0], and the two infinities. *)
Definition float_one : spec_float := S754_finite false 4503599627370496 (-52).
Definition float_five : spec_float := S754_finite false 5629499534213120 (-50).
Definition float_inf : spec_float := S754_infinity false.
Definition float_neg_inf : spec_float := S754_infinity true.

(** The text [main] writes. *)
Definition main_output : string :=
  "Hello from Python!" ++ newline ++ "2 + 3 = 5" ++ newline.

Definition is_none (v : value) : bool :=
  match v with
  | VNone => true
  | _ => false
  end.

(** Operands of types that [+] does not combine: a [None], or a string
    with a number. *)
Definition mismatched (a b : value) : bool :=
  (is_none a || is_none b ||
   is_str a && is_numeric b || is_numeric a && is_str b)%bool.

(** *** The test bodies over an arbitrary arithmetic

    The operands of every test are literals, so the tests of the file have
    one behaviour only.  What a body does when an operation gives another
    result, or fails, shows once the four operators it applies are a
    parameter; [python] is the arithmetic the file runs on.  The bodies
    below are those of the source, statement by statement, with the
    operator taken from the parameter. *)
Record arithmetic : Type := Arithmetic {
  plus : value -> value -> outcome value;
  minus : value -> value -> outcome value;
  times : value -> value -> outcome value;
  divide : value -> value -> outcome value
}.

Definition python : arithmetic := Arithmetic py_add py_sub py_mul py_truediv.

Module Under.

(** [return a + b] *)
Definition add (A : arithmetic) (a b : value) : M value := lift (plus A a b).

Fixpoint sum_from (A : arithmetic) (start : value) (items : list value)
    : outcome value :=
  match items with
  | [] => Return start
  | x :: rest =>
      match plus A start x with
      | Return acc => sum_from A acc rest
      | Raise e => Raise e
      end
  end.

Definition py_sum (A : arithmetic) (iterable : list value) : outcome value :=
  sum_from A (VInt 0) iterable.

Definition test_addition (A : arithmetic) : M value :=
  r <- add A (VInt 2) (VInt 2) ;;
  assert_ (py_eq r (VInt 4)) ;;;
  ret VNone.

Definition test_subtraction (A : arithmetic) : M value :=
  d <- lift (minus A (VInt 5) (VInt 3)) ;;
  assert_ (py_eq d (VInt 2)) ;;;
  ret VNone.

Module TestMath.

Definition test_multiplication (A : arithmetic) (self : instance) : M value :=
  p <- lift (times A (VInt 3) (VInt 4)) ;;
  assert_ (py_eq p (VInt 12)) ;;;
  ret VNone.

Definition test_division (A : arithmetic) (self : instance) : M value :=
  q <- lift (divide A (VInt 10) (VInt 2)) ;;
  assert_ (py_eq q (VInt 5)) ;;;
  ret VNone.

Definition test_add_negative (A : arithmetic) (self : instance) : M value :=
  r <- add A (VInt (-1)) (VInt 1) ;;
  assert_ (py_eq r (VInt 0)) ;;;
  ret VNone.

End TestMath.

Definition test_with_pytest_style (A : arithmetic) : M value :=
  let given := [VInt 1; VInt 2; VInt 3] in
  let expected := VInt 6 in
  total <- lift (py_sum A given) ;;
  assert_ (py_eq total expected) ;;;
  ret VNone.

Module TestAddition.

Definition test_positive_numbers (A : arithmetic) (self : instance) : M value :=
  r <- add A (VInt 3) (VInt 4) ;;
  unittest.TestCase.assertEqual r (VInt 7) ;;;
  ret VNone.

Definition test_negative_numbers (A : arithmetic) (self : instance) : M value :=
  r <- add A (VInt (-3)) (VInt (-4)) ;;
  unittest.TestCase.assertEqual r (VInt (-7)) ;;;
  ret VNone.

End TestAddition.

End Under.

(** A test body, the value its assertion computes and the value it
    expects. *)
Record check : Type :=
  Check { body : M value; computed : outcome value; expected : value }.

Definition checks (A : arithmetic) (self : instance) : list check :=
  [ Check (Under.test_addition A) (plus A (VInt 2) (VInt 2)) (VInt 4);
    Check (Under.test_subtraction A) (minus A (VInt 5) (VInt 3)) (VInt 2);
    Check (Under.TestMath.test_multiplication A self)
      (times A (VInt 3) (VInt 4)) (VInt 12);
    Check (Under.TestMath.test_division A self)
      (divide A (VInt 10) (VInt 2)) (VInt 5);
    Check (Under.TestMath.test_add_negative A self)
      (plus A (VInt (-1)) (VInt 1)) (VInt 0);
    Check (Under.test_with_pytest_style A)
      (Under.py_sum A [VInt 1; VInt 2; VInt 3]) (VInt 6);
    Check (Under.TestAddition.test_positive_numbers A self)
      (plus A (VInt 3) (VInt 4)) (VInt 7);
    Check (Under.TestAddition.test_negative_numbers A self)
      (plus A (VInt (-3)) (VInt (-4))) (VInt (-7)) ].

(** What a body does according to the value its assertion computes: it
    returns on an equal value, raises [AssertionError] on another one, and
    passes on the failure of the computation. *)
Definition verdict (c : check) (w : world) : outcome value * world :=
  match computed c with
  | Return v =>
      ((if value_eqb v (expected c) then Return VNone
        else Raise AssertionError), w)
  | Raise e => (Raise e, w)
  end.

(** Two arithmetics that differ from Python's in [+]: one is off by one on
    ints, the other fails. *)
Definition off_by_one : arithmetic :=
  Arithmetic
    (fun a b =>
       match as_int a, as_int b with
       | Some x, Some y => Return (VInt (x + y + 1))
       | _, _ => py_add a b
       end)
    py_sub py_mul py_truediv.

Definition failing_plus : arithmetic :=
  Arithmetic (fun _ _ => Raise TypeError) py_sub py_mul py_truediv.

(** ** Properties of the runtime *)

Section RuntimeFacts.

Lemma string_app_assoc (s t u : string) : ((s ++ t) ++ u = s ++ (t ++ u))%string.
Proof.
  induction s as [|c s IH]; simpl.
  - reflexivity.
  - now rewrite IH.
Qed.

(** Float addition does not depend on the order of its operands: the
    operands are aligned on the smaller exponent and added as integers. *)
Lemma SFadd_comm (x y : spec_float) :
  SFadd prec emax x y = SFadd prec emax y x.
Proof.
  destruct x as [sx|sx| |sx mx ex], y as [sy|sy| |sy my ey];
    try reflexivity;
    try (destruct sx, sy; reflexivity).
  unfold SFadd.
  rewrite (Z.min_comm ey ex).
  f_equal.
  apply Z.add_comm.
Qed.

(** Every float but NaN equals itself. *)
Lemma SFeqb_refl (x : spec_float) : x <> S754_nan -> SFeqb x x = true.
Proof.
  intros Hx. unfold SFeqb.
  destruct x as [s|s| |s m e]; simpl.
  - reflexivity.
  - now destruct s.
  - now elim Hx.
  - rewrite Z.compare_refl.
    change (Pos.compare_cont Eq m m) with (Pos.compare m m).
    rewrite Pos.compare_refl.
    now destruct s.
Qed.

(** The only failure of a conversion to float is an integer out of range. *)
Lemma float_of_int_raise (n : Z) (e : exn) :
  float_of_int n = Raise e -> e = OverflowError.
Proof.
  unfold float_of_int.
  destruct (binary_normalize prec emax n 0 false); intros H;
    now inversion H.
Qed.

Lemma float_binop_add_comm (a b : value) :
  is_numeric a = true -> is_numeric b = true ->
  float_binop (fun x y => Return (VFloat (SFadd prec emax x y))) a b =
  float_binop (fun x y => Return (VFloat (SFadd prec emax x y))) b a.
Proof.
  intros Ha Hb. unfold float_binop.
  destruct a as [| ba | na | xa | sa]; try discriminate Ha;
    destruct b as [| bb | nb | xb | sb]; try discriminate Hb;
    cbn [as_float];
    repeat match goal with
           | |- context [float_of_int ?n] =>
               let E := fresh "E" in destruct (float_of_int n) eqn:E
           end;
    repeat match goal with
           | H : float_of_int _ = Raise _ |- _ =>
               apply float_of_int_raise in H; subst
           end;
    try reflexivity;
    f_equal; f_equal; apply SFadd_comm.
Qed.

Lemma py_add_comm (a b : value) :
  is_numeric a = true -> is_numeric b = true -> py_add a b = py_add b a.
Proof.
  intros Ha Hb.
  pose proof (float_binop_add_comm a b Ha Hb) as Hf.
  destruct a as [| ba | na | xa | sa]; try discriminate Ha;
    destruct b as [| bb | nb | xb | sb]; try discriminate Hb;
    unfold py_add; simpl as_int; cbv iota beta;
    first [ now rewrite Z.add_comm | exact Hf ].
Qed.

(** Two integers are added as integers, without bound. *)
Lemma py_add_ints (a b : value) (x y : Z) :
  as_int a = Some x -> as_int b = Some y ->
  py_add a b = Return (VInt (x + y)).
Proof.
  intros Ha Hb.
  destruct a as [| ba | na | xa | sa]; try discriminate Ha;
    destruct b as [| bb | nb | xb | sb]; try discriminate Hb;
    unfold py_add; rewrite Ha, Hb; reflexivity.
Qed.

(** The sum of two numbers is an int or a float. *)
Lemma py_add_numeric (a b v : value) :
  is_numeric a = true -> is_numeric b = true ->
  py_add a b = Return v -> is_numeric v = true.
Proof.
  intros Ha Hb.
  destruct a as [| ba | na | xa | sa]; try discriminate Ha;
    destruct b as [| bb | nb | xb | sb]; try discriminate Hb;
    unfold py_add, float_binop; simpl;
    repeat (destruct (float_of_int _));
    intros H; inversion H; reflexivity.
Qed.

Lemma value_eqb_refl (v : value) :
  is_numeric v = true -> v <> VFloat S754_nan -> value_eqb v v = true.
Proof.
  destruct v as [| b | n | x | s]; try discriminate; intros _ Hv; simpl.
  - now destruct b.
  - apply Z.eqb_refl.
  - apply SFeqb_refl. intros ->. now elim Hv.
Qed.

(** [sum] over ints is the integer sum, whatever the length. *)
Lemma sum_from_ints (l : list Z) (start : Z) :
  sum_from (VInt start) (map VInt l) = Return (VInt (fold_left Z.add l start)).
Proof.
  revert start.
  induction l as [|n l IH]; intros start; simpl.
  - reflexivity.
  - apply IH.
Qed.


Lemma main_run (float_repr : spec_float -> string) (w : world) :
  main float_repr w =
  (Return VNone,
   World (stdout w ++ main_output)).
Proof.
  unfold main, bind, print, add, lift, ret. simpl.
  now rewrite string_app_assoc.
Qed.

End RuntimeFacts.

(** ** The entry point and [add] *)

(** C1, as amended: for every pair of integer inputs ([int] or [bool], of
    any magnitude) [add(a, b)] returns the exact sum as an [int], raises
    nothing and leaves the output stream as it found it. *)
Theorem add_int_exact_sum (a b : value) (x y : Z) (w : world) :
  as_int a = Some x -> as_int b = Some y ->
  add a b w = (Return (VInt (x + y)), w).
Proof.
  intros Ha Hb. unfold add, lift.
  now rewrite (py_add_ints a b x y Ha Hb).
Qed.

Lemma add_int_exact_sum_witness :
  as_int (VBool true) = Some 1 /\ as_int (VInt (2 ^ 70)) = Some (2 ^ 70) /\
  add (VBool true) (VInt (2 ^ 70)) (World "log") =
  (Return (VInt (1 + 2 ^ 70)), World "log").
Proof.
  split; [reflexivity | split; [reflexivity |]].
  apply (add_int_exact_sum (VBool true) (VInt (2 ^ 70)) 1 (2 ^ 70));
    reflexivity.
Defined.

(** C1, as stated, fails on numeric inputs that are not both integers:
    [add(2**1024, 1.0)] raises [OverflowError], and [add(2**53, 1.0)]
    returns the float [2.0**53], which is not the sum [2**53 + 1]. *)
Lemma add_numeric_inputs_counterexample :
  is_numeric (VInt (2 ^ 1024)) = true /\
  is_numeric (VInt (2 ^ 53)) = true /\
  is_numeric (VFloat float_one) = true /\
  add (VInt (2 ^ 1024)) (VFloat float_one) (World "") =
    (Raise OverflowError, World "") /\
  add (VInt (2 ^ 53)) (VFloat float_one) (World "") =
    (Return (VFloat (S754_finite false 4503599627370496 1)), World "") /\
  add_equals (VInt (2 ^ 53)) (VFloat float_one) (VInt (2 ^ 53 + 1)) (World "") =
    (Return (VBool false), World "").
Proof. repeat split; vm_compute; reflexivity. Qed.

(** C2: [main] appends exactly two lines to the output stream, first
    [Hello from Python!] and then [2 + 3 = 5], and returns [None]. *)
Theorem main_prints_two_lines (float_repr : spec_float -> string) (w : world) :
  main float_repr w = (Return VNone, World (stdout w ++ main_output)) /\
  splitlines main_output = ["Hello from Python!"; "2 + 3 = 5"]%string.
Proof.
  split.
  - apply main_run.
  - reflexivity.
Qed.

(** C8, as amended: on numeric inputs [add(a, b)] and [add(b, a)] have the
    same outcome, the same value or the same error; [add(a, b) == add(b, a)]
    is true whenever that value is not NaN, so for all integer inputs. *)
Theorem add_commutative_outcome (a b : value) (w : world) :
  is_numeric a = true -> is_numeric b = true ->
  add a b w = add b a w /\
  (forall v, fst (add a b w) = Return v -> v <> VFloat S754_nan ->
     add_commutes a b w = (Return (VBool true), w)) /\
  (forall x y, as_int a = Some x -> as_int b = Some y ->
     add_commutes a b w = (Return (VBool true), w)).
Proof.
  intros Ha Hb.
  pose proof (py_add_comm a b Ha Hb) as Hc.
  assert (Heq : forall v, py_add a b = Return v -> v <> VFloat S754_nan ->
                add_commutes a b w = (Return (VBool true), w)).
  { intros v Hv Hnan.
    unfold add_commutes, add, lift, bind, ret, py_eq.
    rewrite <- Hc, Hv.
    rewrite (value_eqb_refl v); [reflexivity | | assumption].
    exact (py_add_numeric a b v Ha Hb Hv). }
  split; [| split].
  - unfold add, lift. now rewrite Hc.
  - intros v Hv. apply Heq. exact Hv.
  - intros x y Hx Hy. apply (Heq (VInt (x + y))).
    + exact (py_add_ints a b x y Hx Hy).
    + discriminate.
Qed.

Lemma add_commutative_outcome_witness :
  is_numeric (VInt 7) = true /\ is_numeric (VFloat float_one) = true /\
  add (VInt 7) (VFloat float_one) (World "") =
  add (VFloat float_one) (VInt 7) (World "").
Proof.
  split; [reflexivity | split; [reflexivity |]].
  apply (add_commutative_outcome (VInt 7) (VFloat float_one) (World ""));
    reflexivity.
Defined.

(** C8, as stated, fails on numeric inputs: [add(2**1024, 1.0) ==
    add(1.0, 2**1024)] raises [OverflowError] instead of being true, and
    [add(inf, -inf) == add(-inf, inf)] is false, both sums being NaN. *)
Lemma add_commutes_counterexample :
  is_numeric (VInt (2 ^ 1024)) = true /\
  is_numeric (VFloat float_one) = true /\
  is_numeric (VFloat float_inf) = true /\
  is_numeric (VFloat float_neg_inf) = true /\
  add_commutes (VInt (2 ^ 1024)) (VFloat float_one) (World "") =
    (Raise OverflowError, World "") /\
  add_commutes (VFloat float_inf) (VFloat float_neg_inf) (World "") =
    (Return (VBool false), World "").
Proof. repeat split; vm_compute; reflexivity. Qed.


(** ** The tests *)

(** C3: [add(2, 3) == 5], [add(2, 2) == 4], [add(-1, 1) == 0],
    [add(3, 4) == 7] and [add(-3, -4) == -7] are all true, and the four
    tests that assert over [add] return without raising. *)
Theorem addition_equalities_hold (self : instance) (w : world) :
  Forall (fun '(a, b, c) =>
            add_equals (VInt a) (VInt b) (VInt c) w = (Return (VBool true), w))
         addition_facts /\
  test_addition w = (Return VNone, w) /\
  TestMath.test_add_negative self w = (Return VNone, w) /\
  TestAddition.test_positive_numbers self w = (Return VNone, w) /\
  TestAddition.test_negative_numbers self w = (Return VNone, w).
Proof.
  split; [| repeat split].
  unfold addition_facts.
  repeat (constructor; [reflexivity |]).
  constructor.
Qed.

(** C4: every test function and test method returns [None] without
    raising, on any instance and in any state: each asserted equality,
    [5 - 3 == 2] and [3 * 4 == 12] among them, evaluates to [True]. *)
Theorem tests_complete_without_raising (self : instance) (w : world) :
  Forall (fun t => asserted t w = (Return (VBool true), w) /\
                   run t w = (Return VNone, w))
         (test_cases self) /\
  py_sub (VInt 5) (VInt 3) = Return (VInt 2) /\
  py_mul (VInt 3) (VInt 4) = Return (VInt 12).
Proof.
  split; [| split; reflexivity].
  unfold test_cases.
  repeat (constructor; [split; reflexivity |]).
  constructor.
Qed.

(** C5: whatever the arithmetic, a test body returns when its assertion
    computes the expected value, raises [AssertionError] when it computes
    another one, and passes the failure of the computation on to its caller
    unchanged, the output stream untouched: it raises exactly when the
    equality is false or the computation failed, and nothing is retried or
    suppressed.  At Python's arithmetic the bodies are the tests of the
    file, and there every computation returns: an assertion failure is the
    only failure left. *)
Theorem tests_fail_exactly_on_mismatch
    (A : arithmetic) (self : instance) (w : world) :
  Forall (fun c =>
            body c w = verdict c w /\
            (forall v, computed c = Return v ->
               (raises (body c w) <-> value_eqb v (expected c) = false)) /\
            (forall e, computed c = Raise e -> body c w = (Raise e, w)))
         (checks A self) /\
  map body (checks python self) = map run (test_cases self) /\
  Forall (fun c => exists v, computed c = Return v) (checks python self).
Proof.
  assert (Hv : forall c, body c w = verdict c w ->
             body c w = verdict c w /\
             (forall v, computed c = Return v ->
                (raises (body c w) <-> value_eqb v (expected c) = false)) /\
             (forall e, computed c = Raise e -> body c w = (Raise e, w))).
  { intros c Hc. split; [exact Hc | split].
    - intros v Hcomp. rewrite Hc. unfold verdict, raises. rewrite Hcomp.
      destruct (value_eqb v (expected c)); cbn [fst]; split.
      + intros [e He]. discriminate He.
      + discriminate.
      + reflexivity.
      + intros _. now exists AssertionError.
    - intros e Hcomp. rewrite Hc. unfold verdict. now rewrite Hcomp. }
  split; [| split].
  - unfold checks.
    repeat (constructor;
            [ apply Hv; unfold verdict; cbn [body computed expected];
              unfold Under.test_addition, Under.test_subtraction,
                Under.TestMath.test_multiplication,
                Under.TestMath.test_division,
                Under.TestMath.test_add_negative,
                Under.test_with_pytest_style,
                Under.TestAddition.test_positive_numbers,
                Under.TestAddition.test_negative_numbers,
                Under.add, unittest.TestCase.assertEqual, assert_,
                bind, lift, ret, raise, py_eq; cbn [truthy negb];
              match goal with
              | |- context [match ?o with Return _ => _ | Raise _ => _ end] =>
                  destruct o as [v | e];
                  [destruct (value_eqb v _) |]; reflexivity
              end |]).
    constructor.
  - reflexivity.
  - unfold checks.
    repeat (constructor; [eexists; reflexivity |]).
    constructor.
Qed.

(** The statement above tells bodies apart: with a [+] that is off by one
    the four tests over [add] and the test over [sum] raise
    [AssertionError], the tests that do not add still return, and a [+]
    that fails reaches the caller as the [TypeError] it raised. *)
Lemma mismatch_is_detected (self : instance) (w : world) :
  Under.test_addition off_by_one w = (Raise AssertionError, w) /\
  Under.TestMath.test_add_negative off_by_one self w =
    (Raise AssertionError, w) /\
  Under.test_with_pytest_style off_by_one w = (Raise AssertionError, w) /\
  Under.TestAddition.test_positive_numbers off_by_one self w =
    (Raise AssertionError, w) /\
  Under.TestAddition.test_negative_numbers off_by_one self w =
    (Raise AssertionError, w) /\
  Under.test_subtraction off_by_one w = (Return VNone, w) /\
  Under.test_addition failing_plus w = (Raise TypeError, w) /\
  Under.test_with_pytest_style failing_plus w = (Raise TypeError, w).
Proof. repeat split. Qed.

(** C6: [10 / 2] is the float [5.0]: the division leaves no remainder and
    nothing is rounded away, the float compares equal to the int 5, and
    [test_division] returns without raising. *)
Theorem division_test_passes (self : instance) (w : world) :
  py_truediv (VInt 10) (VInt 2) = Return (VFloat float_five) /\
  SFdiv_core_binary prec emax 10 0 2 0 = (5 * 2 ^ 51, -51, loc_Exact) /\
  float_eq_int float_five 5 = true /\
  py_eq (VFloat float_five) (VInt 5) = VBool true /\
  TestMath.test_division self w = (Return VNone, w).
Proof. repeat split. Qed.

(** C7: [sum([1, 2, 3])] is 6, which equals [expected], so
    [test_with_pytest_style] returns without raising. *)
Theorem sum_of_given_is_expected (w : world) :
  py_sum [VInt 1; VInt 2; VInt 3] = Return (VInt 6) /\
  py_eq (VInt 6) (VInt 6) = VBool true /\
  test_with_pytest_style w = (Return VNone, w).
Proof.
  split; [| split].
  - unfold py_sum.
    change [VInt 1; VInt 2; VInt 3] with (map VInt [1; 2; 3]).
    now rewrite sum_from_ints.
  - reflexivity.
  - reflexivity.
Qed.


(** ** Further properties of [add], [sum] and the module body *)

(** *** Conversion of an int to a float

    The lemmas below follow the rounding of [binary_normalize] far enough
    to bound the integers whose conversion is exact, and those whose
    conversion stays finite. *)

Lemma digits2_pos_iter (m k : positive) :
  digits2_pos (Pos.iter xO m k) = (digits2_pos m + k)%positive.
Proof.
  induction k as [|k IH] using Pos.peano_ind.
  - simpl. now rewrite Pos.add_1_r.
  - rewrite Pos.iter_succ. simpl. rewrite IH. now rewrite Pos.add_succ_r.
Qed.

Lemma Zpos_iter_xO (m k : positive) :
  Zpos (Pos.iter xO m k) = Zpos m * 2 ^ Zpos k.
Proof.
  induction k as [|k IH] using Pos.peano_ind.
  - simpl. lia.
  - rewrite Pos.iter_succ, Pos2Z.inj_xO, IH, Pos2Z.inj_succ.
    rewrite Z.pow_succ_r by lia. ring.
Qed.

(** A number of [d] binary digits is at least [2^(d-1)] and below [2^d]. *)
Lemma digits2_pos_lower (m : positive) :
  2 ^ Zpos (digits2_pos m) <= 2 * Zpos m.
Proof.
  induction m as [m IH|m IH|]; simpl digits2_pos.
  - rewrite Pos2Z.inj_succ, Z.pow_succ_r by lia. lia.
  - rewrite Pos2Z.inj_succ, Z.pow_succ_r by lia. lia.
  - simpl. lia.
Qed.

Lemma digits2_pos_small (m : positive) :
  Zpos m < 2 ^ 53 -> Zpos (digits2_pos m) <= 53.
Proof.
  intros Hm. pose proof (digits2_pos_lower m) as Hl.
  assert (H : 2 ^ Zpos (digits2_pos m) < 2 ^ 54).
  { change (2 ^ 54) with (2 * 2 ^ 53). lia. }
  apply Z.pow_lt_mono_r_iff in H; lia.
Qed.

(** A mantissa of exactly 53 digits is kept as it is. *)
Lemma binary_round_aux_exact (s : bool) (mz : positive) (ez : Z) :
  Zpos (digits2_pos mz) = 53 -> -1074 <= ez <= 971 ->
  binary_round_aux prec emax s (Zpos mz) ez loc_Exact = S754_finite s mz ez.
Proof.
  intros Hd He.
  unfold binary_round_aux, shr_fexp, fexp, emin, Zdigits2, prec, emax.
  cbn [shr_record_of_loc]. rewrite Hd.
  replace (Z.max (53 + ez - 53) (3 - 1024 - 53) - ez) with 0 by lia.
  cbn [shr shr_m loc_of_shr_record round_nearest_even shr_record_of_loc].
  rewrite Hd.
  replace (Z.max (53 + ez - 53) (3 - 1024 - 53) - ez) with 0 by lia.
  cbn [shr shr_m].
  destruct (Z.leb_spec ez (1024 - 53)); [reflexivity | lia].
Qed.

(** Below [2^53] the integer is only shifted left to 53 digits. *)
Lemma binary_round_small (s : bool) (m : positive) :
  Zpos m < 2 ^ 53 ->
  exists mz ez,
    binary_round prec emax s m 0 = S754_finite s mz ez /\
    -52 <= ez <= 0 /\ Zpos mz = Zpos m * 2 ^ (- ez).
Proof.
  intros Hm. pose proof (digits2_pos_small m Hm) as Hd.
  unfold binary_round, shl_align, fexp, emin, prec, emax.
  pose proof (Pos2Z.is_pos (digits2_pos m)) as Hpos.
  replace (Z.max (Zpos (digits2_pos m) + 0 - 53) (3 - 1024 - 53))
    with (Zpos (digits2_pos m) - 53) by lia.
  destruct (Zpos (digits2_pos m) - 53 - 0) as [|p|p] eqn:Hk; try lia.
  - exists m, 0. split; [| split].
    + apply binary_round_aux_exact; lia.
    + lia.
    + simpl. lia.
  - exists (Pos.iter xO m p), (Zpos (digits2_pos m) - 53). split; [| split].
    + apply binary_round_aux_exact; [| lia].
      rewrite digits2_pos_iter, Pos2Z.inj_add. lia.
    + lia.
    + rewrite Zpos_iter_xO. f_equal. f_equal. lia.
Qed.

(** An int below [2^53] in magnitude converts to the float of the same
    value. *)
Lemma float_of_int_exact (n : Z) :
  Z.abs n < 2 ^ 53 ->
  exists x, float_of_int n = Return x /\ float_eq_int x n = true.
Proof.
  intros Hn. unfold float_of_int, binary_normalize.
  destruct n as [|m|m].
  - exists (S754_zero false). split; reflexivity.
  - destruct (binary_round_small false m Hn) as (mz & ez & Hr & He & Hv).
    rewrite Hr. exists (S754_finite false mz ez). split; [reflexivity |].
    unfold float_eq_int, cond_Zopp. rewrite Hv.
    destruct (Z.leb_spec 0 ez).
    + assert (ez = 0) by lia. subst ez. apply Z.eqb_eq.
      change (2 ^ (- 0)) with 1. change (2 ^ 0) with 1. lia.
    + apply Z.eqb_refl.
  - destruct (binary_round_small true m Hn) as (mz & ez & Hr & He & Hv).
    rewrite Hr. exists (S754_finite true mz ez). split; [reflexivity |].
    unfold float_eq_int, cond_Zopp. rewrite Hv.
    destruct (Z.leb_spec 0 ez).
    + assert (ez = 0) by lia. subst ez. apply Z.eqb_eq.
      change (2 ^ (- 0)) with 1. change (2 ^ 0) with 1. lia.
    + apply Z.eqb_eq. rewrite <- Pos2Z.opp_pos. ring.
Qed.

Lemma digits2_pos_upper (m : positive) :
  Zpos m < 2 ^ Zpos (digits2_pos m).
Proof.
  induction m as [m IH|m IH|]; simpl digits2_pos.
  - rewrite Pos2Z.inj_succ, Z.pow_succ_r by lia. lia.
  - rewrite Pos2Z.inj_succ, Z.pow_succ_r by lia. lia.
  - simpl. lia.
Qed.

Lemma Zdigits2_le (z n : Z) :
  0 <= z < 2 ^ n -> 0 <= n -> Zdigits2 z <= n.
Proof.
  intros [Hz Hlt] Hn. destruct z as [|m|m]; simpl; try lia.
  pose proof (digits2_pos_lower m) as Hl.
  assert (H : 2 ^ Zpos (digits2_pos m) < 2 ^ (n + 1)).
  { rewrite Z.pow_add_r by lia. change (2 ^ 1) with 2. lia. }
  apply Z.pow_lt_mono_r_iff in H; lia.
Qed.

(** One step of the right shift halves the mantissa. *)
Lemma shr_1_m (mrs : shr_record) :
  0 <= shr_m mrs -> shr_m (shr_1 mrs) = shr_m mrs / 2.
Proof.
  destruct mrs as [m r s]. simpl. intros Hm.
  destruct m as [|[p|p|]|p]; simpl shr_m; try lia.
  - reflexivity.
  - rewrite Pos2Z.inj_xI.
    apply (Z.div_unique _ 2 (Zpos p) 1); lia.
  - rewrite Pos2Z.inj_xO.
    apply (Z.div_unique _ 2 (Zpos p) 0); lia.
  - reflexivity.
Qed.

Lemma pow2_xO (p : positive) : 2 ^ Zpos p~0 = 2 ^ Zpos p * 2 ^ Zpos p.
Proof.
  rewrite <- Z.pow_add_r by lia. f_equal. lia.
Qed.

Lemma pow2_xI (p : positive) : 2 ^ Zpos p~1 = 2 * (2 ^ Zpos p * 2 ^ Zpos p).
Proof.
  rewrite <- Z.pow_add_r, <- Z.pow_succ_r by lia. f_equal. lia.
Qed.

Lemma shr_m_iter (p : positive) :
  forall mrs, 0 <= shr_m mrs ->
    shr_m (iter_pos shr_1 p mrs) = shr_m mrs / 2 ^ Zpos p.
Proof.
  induction p as [p IH|p IH|]; intros mrs Hm; simpl iter_pos.
  - assert (H1 : 0 <= shr_m (shr_1 mrs)).
    { rewrite shr_1_m by assumption. apply Z.div_pos; lia. }
    assert (H2 : 0 <= shr_m (iter_pos shr_1 p (shr_1 mrs))).
    { rewrite IH by assumption. apply Z.div_pos; lia. }
    rewrite IH, IH, shr_1_m by assumption.
    rewrite !Z.div_div by lia.
    now rewrite pow2_xI.
  - assert (H2 : 0 <= shr_m (iter_pos shr_1 p mrs)).
    { rewrite IH by assumption. apply Z.div_pos; lia. }
    rewrite IH, IH by assumption.
    rewrite Z.div_div by lia.
    now rewrite pow2_xO.
  - rewrite shr_1_m by assumption. reflexivity.
Qed.

Lemma round_nearest_even_bounds (m : Z) (l : location) :
  m <= round_nearest_even m l <= m + 1.
Proof.
  unfold round_nearest_even.
  destruct l as [|[]]; try destruct (Z.even m); lia.
Qed.

(** An integer of 54 to 1023 digits is shifted right to 53 digits and
    rounded; even when rounding carries, the exponent stays in range. *)
Lemma binary_round_aux_large (s : bool) (m : positive) :
  54 <= Zpos (digits2_pos m) <= 1023 ->
  forall s', binary_round_aux prec emax s (Zpos m) 0 loc_Exact <> S754_infinity s'.
Proof.
  intros Hd s'.
  pose proof (digits2_pos_upper m) as Hup.
  unfold binary_round_aux.
  destruct (shr_fexp prec emax (Zpos m) 0 loc_Exact) as [mrs1 e1] eqn:H1.
  assert (Hm1 : 0 <= shr_m mrs1 < 2 ^ 53 /\ e1 = Zpos (digits2_pos m) - 53).
  { unfold shr_fexp, shr, fexp, emin, prec, emax, Zdigits2 in H1.
    destruct (Z.max (Zpos (digits2_pos m) + 0 - 53) (3 - 1024 - 53) - 0)
      as [|p|p] eqn:Hp; try lia.
    inversion H1; subst mrs1 e1; clear H1.
    rewrite shr_m_iter by (simpl; lia).
    cbn [shr_record_of_loc shr_m].
    split; [split |]; try lia.
    - apply Z.div_pos; lia.
    - apply Z.div_lt_upper_bound; [lia |].
      rewrite <- Z.pow_add_r by lia.
      replace (Zpos p + 53) with (Zpos (digits2_pos m)) by lia.
      exact Hup. }
  destruct Hm1 as [Hm1 He1].
  pose proof (round_nearest_even_bounds (shr_m mrs1) (loc_of_shr_record mrs1))
    as Hr.
  set (m2 := round_nearest_even (shr_m mrs1) (loc_of_shr_record mrs1)) in *.
  destruct (shr_fexp prec emax m2 e1 loc_Exact) as [mrs2 e2] eqn:H2.
  assert (He2 : e2 <= 971).
  { assert (Hdig : Zdigits2 m2 <= 54).
    { apply Zdigits2_le; [| lia].
      change (2 ^ 54) with (2 * 2 ^ 53). lia. }
    unfold shr_fexp, shr, fexp, emin, prec, emax in H2.
    destruct (Z.max (Zdigits2 m2 + e1 - 53) (3 - 1024 - 53) - e1)
      as [|p|p] eqn:Hp; inversion H2; subst; lia. }
  destruct (shr_m mrs2) as [|q|q]; try discriminate.
  unfold prec, emax.
  destruct (Z.leb_spec e2 (1024 - 53)); [discriminate | lia].
Qed.

Lemma binary_round_finite_range (s : bool) (m : positive) :
  Zpos m < 2 ^ 1023 ->
  forall s', binary_round prec emax s m 0 <> S754_infinity s'.
Proof.
  intros Hm s'.
  destruct (Z.lt_ge_cases (Zpos m) (2 ^ 53)) as [Hs | Hl].
  - destruct (binary_round_small s m Hs) as (mz & ez & Hr & _).
    rewrite Hr. discriminate.
  - assert (Hd : 54 <= Zpos (digits2_pos m) <= 1023).
    { pose proof (digits2_pos_upper m) as Hup.
      pose proof (digits2_pos_lower m) as Hlo.
      split.
      - assert (H : 2 ^ 53 < 2 ^ Zpos (digits2_pos m)) by lia.
        apply Z.pow_lt_mono_r_iff in H; lia.
      - assert (H : 2 ^ Zpos (digits2_pos m) < 2 ^ 1024).
        { change (2 ^ 1024) with (2 * 2 ^ 1023). lia. }
        apply Z.pow_lt_mono_r_iff in H; lia. }
    unfold binary_round, shl_align, fexp, emin, prec, emax.
    destruct (Z.max (Zpos (digits2_pos m) + 0 - 53) (3 - 1024 - 53) - 0)
      as [|p|p] eqn:Hp; try lia.
    apply (binary_round_aux_large s m Hd).
Qed.

(** No int below [2^1023] in magnitude is out of the float range. *)
Lemma float_of_int_in_range (n : Z) :
  Z.abs n < 2 ^ 1023 -> exists x, float_of_int n = Return x.
Proof.
  intros Hn. unfold float_of_int, binary_normalize.
  destruct n as [|m|m].
  - eexists. reflexivity.
  - pose proof (binary_round_finite_range false m Hn) as Hf.
    destruct (binary_round prec emax false m 0) as [b|b| |b q e];
      try (eexists; reflexivity).
    now elim (Hf b).
  - pose proof (binary_round_finite_range true m Hn) as Hf.
    destruct (binary_round prec emax true m 0) as [b|b| |b q e];
      try (eexists; reflexivity).
    now elim (Hf b).
Qed.

Lemma string_app_empty_r (s : string) : (s ++ "")%string = s.
Proof.
  induction s as [|c s IH]; simpl.
  - reflexivity.
  - now rewrite IH.
Qed.

Lemma string_app_length (s t : string) :
  String.length (s ++ t) = (String.length s + String.length t)%nat.
Proof.
  induction s as [|c s IH]; simpl.
  - reflexivity.
  - now rewrite IH.
Qed.

Lemma fold_left_add_start (l : list Z) (start : Z) :
  fold_left Z.add l start = start + fold_right Z.add 0 l.
Proof.
  revert start.
  induction l as [|n l IH]; intros start; simpl.
  - lia.
  - rewrite IH. lia.
Qed.

Lemma fold_right_add_app (l1 l2 : list Z) :
  fold_right Z.add 0 (l1 ++ l2)%list =
  fold_right Z.add 0 l1 + fold_right Z.add 0 l2.
Proof.
  induction l1 as [|n l1 IH]; simpl.
  - reflexivity.
  - rewrite IH. lia.
Qed.

(** *** [add] beyond the integers *)

(** X1: [add] does not convert between strings and numbers: a string with
    a number (bool, int or float) in either order, and [None] with a
    [None], a number or a string, raise [TypeError], the state left as it
    was. *)
Theorem add_mismatched_type_error (a b : value) (w : world) :
  mismatched a b = true -> add a b w = (Raise TypeError, w).
Proof.
  unfold add, lift, mismatched. intros H. f_equal.
  destruct a as [| ba | na | xa | sa], b as [| bb | nb | xb | sb];
    try discriminate H;
    unfold py_add, float_binop; cbn [as_int as_float];
    try reflexivity;
    destruct (float_of_int _); reflexivity.
Qed.

(** X2: an int below [2**1023] in magnitude and a float, whichever it is
    (infinities and NaN included) and in either order, are added without
    error: [add] returns a float, the same one for both orders. *)
Theorem add_int_float_in_range (n : Z) (y : spec_float) (w : world) :
  Z.abs n < 2 ^ 1023 ->
  exists r,
    add (VInt n) (VFloat y) w = (Return (VFloat r), w) /\
    add (VFloat y) (VInt n) w = (Return (VFloat r), w).
Proof.
  intros Hn. destruct (float_of_int_in_range n Hn) as [x Hx].
  exists (SFadd prec emax x y).
  unfold add, lift, py_add, float_binop. cbn [as_int as_float].
  rewrite Hx. split; [reflexivity |].
  now rewrite (SFadd_comm y x).
Qed.

(** X3: for an int [n] below [2**53] in magnitude, [add(n, 0.0) == n] and
    [add(0.0, n) == n] are true: the float sum is [n] exactly. *)
Theorem add_small_int_to_float_exact (n : Z) (w : world) :
  Z.abs n < 2 ^ 53 ->
  add_equals (VInt n) (VFloat float_zero) (VInt n) w = (Return (VBool true), w) /\
  add_equals (VFloat float_zero) (VInt n) (VInt n) w = (Return (VBool true), w).
Proof.
  intros Hn.
  destruct (float_of_int_exact n Hn) as (x & Hx & Heq).
  unfold add_equals, add, lift, bind, ret, py_eq, py_add, float_binop.
  cbn [as_int as_float]. rewrite Hx.
  destruct x as [s|s| |s m e]; try discriminate Heq.
  - cbn [float_eq_int] in Heq.
    split; destruct s; cbn; now rewrite Heq.
  - split; cbn [SFadd float_zero value_eqb as_int]; now rewrite Heq.
Qed.

(** X4: 0 is neutral for [add] up to [==]: for every number [a] other than
    NaN, [add(a, 0) == a] and [add(0, a) == a] are true. *)
Theorem add_zero_neutral (a : value) (w : world) :
  is_numeric a = true -> a <> VFloat S754_nan ->
  add_equals a (VInt 0) a w = (Return (VBool true), w) /\
  add_equals (VInt 0) a a w = (Return (VBool true), w).
Proof.
  intros Ha Hnan.
  unfold add_equals, add, lift, bind, ret, py_eq.
  destruct a as [| b | n | x | s]; try discriminate Ha.
  - split; destruct b; reflexivity.
  - unfold py_add. cbn [as_int value_eqb].
    rewrite Z.add_0_r, Z.add_0_l, Z.eqb_refl. split; reflexivity.
  - assert (Hx : x <> S754_nan) by (intros ->; now elim Hnan).
    pose proof (SFeqb_refl x Hx) as Hr.
    unfold py_add, float_binop. cbn [as_int as_float].
    change (float_of_int 0) with (@Return spec_float (S754_zero false)).
    cbn [value_eqb].
    destruct x as [sx|sx| |sx m e]; try (now elim Hx);
      try (destruct sx); split; try reflexivity;
      cbn [SFadd]; now rewrite Hr.
Qed.

(** X5: on integers ([int] or [bool]) [add(add(a, b), c)] and
    [add(a, add(b, c))] return the same int, the sum of the three. *)
Theorem add_associative_on_ints (a b c : value) (x y z : Z) (w : world) :
  as_int a = Some x -> as_int b = Some y -> as_int c = Some z ->
  add_left a b c w = (Return (VInt (x + y + z)), w) /\
  add_right a b c w = (Return (VInt (x + y + z)), w).
Proof.
  intros Ha Hb Hc.
  unfold add_left, add_right, add, lift, bind.
  rewrite (py_add_ints a b x y Ha Hb), (py_add_ints b c y z Hb Hc).
  rewrite (py_add_ints (VInt (x + y)) c (x + y) z eq_refl Hc).
  rewrite (py_add_ints a (VInt (y + z)) x (y + z) Ha eq_refl).
  now rewrite Z.add_assoc.
Qed.

(** X6: on two strings [add] returns their concatenation, whose length is
    the sum of the lengths; nested calls associate, and the empty string is
    neutral on both sides. *)
Theorem add_strings_concatenate (s t u : string) (w : world) :
  add (VStr s) (VStr t) w = (Return (VStr (s ++ t)), w) /\
  String.length (s ++ t) = (String.length s + String.length t)%nat /\
  add_left (VStr s) (VStr t) (VStr u) w =
    add_right (VStr s) (VStr t) (VStr u) w /\
  add (VStr s) (VStr "") w = (Return (VStr s), w) /\
  add (VStr "") (VStr s) w = (Return (VStr s), w).
Proof.
  split; [reflexivity | split; [apply string_app_length | split; [| split]]].
  - unfold add_left, add_right, add, lift, bind. cbn [py_add].
    now rewrite string_app_assoc.
  - unfold add, lift. cbn [py_add]. now rewrite string_app_empty_r.
  - reflexivity.
Qed.

(** X7: run under any name but [__main__] (an import), the module body
    writes nothing and returns; run as [__main__] it writes the two lines
    of [main]. *)
Theorem module_body_quiet_on_import
    (float_repr : spec_float -> string) (name : string) (w : world) :
  name <> "__main__"%string ->
  module_body float_repr name w = (Return VNone, w) /\
  module_body float_repr "__main__" w =
    (Return VNone, World (stdout w ++ main_output)).
Proof.
  intros Hname. split.
  - unfold module_body, py_eq. cbn [value_eqb truthy].
    apply String.eqb_neq in Hname. now rewrite Hname.
  - unfold module_body, py_eq. cbn [value_eqb truthy].
    rewrite String.eqb_refl.
    unfold bind. now rewrite main_run.
Qed.

(** X8: [sum] of a list of ints is their exact integer sum, 0 for the
    empty list, and the sum of a concatenation is the sum of the sums. *)
Theorem sum_of_ints_exact (l1 l2 : list Z) :
  py_sum [] = Return (VInt 0) /\
  py_sum (map VInt l1) = Return (VInt (fold_right Z.add 0 l1)) /\
  py_sum (map VInt (l1 ++ l2)) =
    Return (VInt (fold_right Z.add 0 l1 + fold_right Z.add 0 l2)).
Proof.
  unfold py_sum. split; [reflexivity | split].
  - now rewrite sum_from_ints, fold_left_add_start.
  - now rewrite sum_from_ints, fold_left_add_start, fold_right_add_app.
Qed.

Lemma add_mismatched_type_error_witness :
  mismatched (VStr "2") (VInt 3) = true /\
  add (VStr "2") (VInt 3) (World "") = (Raise TypeError, World "").
Proof.
  split; [reflexivity |].
  apply (add_mismatched_type_error (VStr "2") (VInt 3) (World "")).
  reflexivity.
Defined.

Lemma add_int_float_in_range_witness :
  Z.abs (2 ^ 1023 - 1) < 2 ^ 1023 /\
  exists r,
    add (VInt (2 ^ 1023 - 1)) (VFloat float_one) (World "") =
      (Return (VFloat r), World "") /\
    add (VFloat float_one) (VInt (2 ^ 1023 - 1)) (World "") =
      (Return (VFloat r), World "").
Proof.
  split; [reflexivity |].
  apply (add_int_float_in_range (2 ^ 1023 - 1) float_one (World "")).
  reflexivity.
Defined.

Lemma add_small_int_to_float_exact_witness :
  Z.abs (2 ^ 53 - 1) < 2 ^ 53 /\
  add_equals (VInt (2 ^ 53 - 1)) (VFloat float_zero) (VInt (2 ^ 53 - 1))
    (World "") = (Return (VBool true), World "").
Proof.
  split; [reflexivity |].
  apply (add_small_int_to_float_exact (2 ^ 53 - 1) (World "")).
  reflexivity.
Defined.

Lemma add_zero_neutral_witness :
  is_numeric (VFloat float_neg_inf) = true /\
  VFloat float_neg_inf <> VFloat S754_nan /\
  add_equals (VFloat float_neg_inf) (VInt 0) (VFloat float_neg_inf) (World "") =
    (Return (VBool true), World "").
Proof.
  split; [reflexivity | split; [discriminate |]].
  apply (add_zero_neutral (VFloat float_neg_inf) (World ""));
    [reflexivity | discriminate].
Defined.

Lemma add_associative_on_ints_witness :
  as_int (VBool true) = Some 1 /\ as_int (VInt 2) = Some 2 /\
  as_int (VInt (-5)) = Some (-5) /\
  add_left (VBool true) (VInt 2) (VInt (-5)) (World "") =
    (Return (VInt (1 + 2 + -5)), World "").
Proof.
  repeat (split; [reflexivity |]).
  apply (add_associative_on_ints (VBool true) (VInt 2) (VInt (-5)) 1 2 (-5)
           (World "")); reflexivity.
Defined.

Lemma module_body_quiet_on_import_witness :
  "example"%string <> "__main__"%string /\
  module_body (fun _ => "?"%string) "example" (World "") =
    (Return VNone, World "").
Proof.
  split; [discriminate |].
  apply (module_body_quiet_on_import (fun _ => "?"%string) "example" (World "")).
  discriminate.
Defined.
